(** * nx-make, examples/hello-world: [hello.c] and [test.c]

    A shallow embedding of the two translation units of the hello-world
    example and the properties its specification states about them.

    - [CInt]    : the C type [int] (32 bits, two's complement) carried by [Z];
    - [CDouble] : the C type [double] (IEEE 754 binary64) as a [spec_float];
    - [Stdio]   : a process that writes to standard output and may abort,
                  with [printf] and [assert];
    - [MathLib] : the interface of the sibling math library that [hello.c]
                  calls, and the library as the specification describes it;
    - [Hello]   : [hello.c]  ([print_hello], [add]);
    - [Test]    : [test.c]   ([test_add], [main]) against any linked [add];
    - [Program] : [test.c] linked with [hello.c];
    - [Text]    : lines of text, for the shape of what is written. *)

From Stdlib Require Import ZArith Lia Bool List Ascii String.
From Stdlib Require Import DecimalString.
From Stdlib Require Import SpecFloat.
Import ListNotations.

Local Open Scope Z_scope.

(* ===================================================================== *)
(** ** The type [int] *)
(* ===================================================================== *)

Module CInt.

(** [int] is taken 32 bits wide, as on the ILP32 and LP64 targets. *)
Definition width : Z := 32.
Definition modulus : Z := 2 ^ width.
Definition half_modulus : Z := 2 ^ (width - 1).
Definition int_min : Z := - half_modulus.
Definition int_max : Z := half_modulus - 1.

(** The values an [int] can hold. *)
Definition in_range (z : Z) : Prop := int_min <= z <= int_max.

Definition in_rangeb (z : Z) : bool := (int_min <=? z) && (z <=? int_max).

(** Two's complement reduction of a mathematical integer to an [int]:
    the representative of [z] modulo [2^32] that lies in
    [int_min .. int_max]. *)
Definition wrap (z : Z) : Z :=
  (z + half_modulus) mod modulus - half_modulus.

(** The C operators on [int].  ISO C leaves a signed result that does not
    fit undefined; the machine instruction wraps, and that is what is
    written out here. *)
Definition int_add (a b : Z) : Z := wrap (a + b).
Definition int_mul (a b : Z) : Z := wrap (a * b).

(** [a == b] on [int], as a truth value. *)
Definition int_eq (a b : Z) : bool := a =? b.

End CInt.

(* ===================================================================== *)
(** ** The type [double] *)
(* ===================================================================== *)

Module CDouble.

Definition prec : Z := 53.
Definition emax : Z := 1024.

Definition double : Type := spec_float.

(** A floating constant with an integral value, such as [10.0]. *)
Definition of_Z (z : Z) : double := binary_normalize prec emax z 0 false.

(** [a / b] on [double]: IEEE 754 division, rounding to nearest even. *)
Definition div (a b : double) : double := SFdiv prec emax a b.

End CDouble.

(* ===================================================================== *)
(** ** Standard output, [printf] and [assert] *)
(* ===================================================================== *)

Module Stdio.

Local Open Scope string_scope.
Local Open Scope Z_scope.

(** What a process can see of its surroundings.  [argv] and [stdin] are
    there to say that nothing reads them: the only operation of the
    two source files on the world is to append to [stdout]. *)
Record world : Type := mkWorld {
  argv : list string;
  stdin : string;
  stdout : string
}.

(** What [assert] reports before it calls [abort]: [__func__] and the
    text of the expression. *)
Record failure : Type := mkFailure {
  func : string;
  expr : string
}.

(** A call either returns to its caller or aborts the process. *)
Inductive result (A : Type) : Type :=
| Returned (a : A)
| Aborted (fl : failure).
Arguments Returned {A} a.
Arguments Aborted {A} fl.

Definition proc (A : Type) : Type := world -> result A * world.

Definition ret {A} (a : A) : proc A := fun w => (Returned a, w).

Definition bind {A B} (m : proc A) (k : A -> proc B) : proc B :=
  fun w =>
    match m w with
    | (Returned a, w') => k a w'
    | (Aborted fl, w') => (Aborted fl, w')
    end.

(** The status the parent of the process observes: the low eight bits of
    the value [main] returns, or [128 + SIGABRT] after [abort]. *)
Definition SIGABRT : Z := 6.

Definition exit_status (r : result Z) : Z :=
  match r with
  | Returned code => code mod 256
  | Aborted _ => 128 + SIGABRT
  end.

Definition aborted {A} (r : result A) : bool :=
  match r with
  | Returned _ => false
  | Aborted _ => true
  end.

(** *** Formatting *)

Definition LF : ascii := ascii_of_nat 10.

(** The escape sequences of a C string literal that the sources use. *)
Fixpoint c_literal (s : string) : string :=
  match s with
  | EmptyString => EmptyString
  | String c rest =>
      if Ascii.eqb c "\" then
        match rest with
        | String d rest' =>
            if Ascii.eqb d "n" then String LF (c_literal rest')
            else String d (c_literal rest')
        | EmptyString => EmptyString
        end
      else String c (c_literal rest)
  end.

(** [%d] *)
Definition fmt_d (z : Z) : string := NilZero.string_of_int (Z.to_int z).

(** Round the rational [n / d] ([0 < d]) to the nearest integer, ties to
    even. *)
Definition round_half_even (n d : Z) : Z :=
  let q := n / d in
  let r := n mod d in
  if 2 * r <? d then q
  else if d <? 2 * r then q + 1
  else if Z.even q then q else q + 1.

(** The hundredths in the magnitude [m * 2^e], correctly rounded. *)
Definition hundredths (m : positive) (e : Z) : Z :=
  if 0 <=? e then Z.pos m * 100 * 2 ^ e
  else round_half_even (Z.pos m * 100) (2 ^ (- e)).

Definition two_digits (z : Z) : string :=
  (if z <? 10 then "0" else "") ++ fmt_d z.

Definition sign_prefix (s : bool) : string := if s then "-" else "".

(** [%.2f] *)
Definition fmt_f2 (x : CDouble.double) : string :=
  match x with
  | S754_zero s => sign_prefix s ++ "0.00"
  | S754_infinity s => sign_prefix s ++ "inf"
  | S754_nan => "nan"
  | S754_finite s m e =>
      let h := hundredths m e in
      sign_prefix s ++ fmt_d (h / 100) ++ "." ++ two_digits (h mod 100)
  end.

(** The variable arguments of a [printf] call. *)
Inductive arg : Type :=
| ArgInt (z : Z)
| ArgDouble (x : CDouble.double).

(** The conversions of [printf] that the sources use: [%d], [%.2f] and
    [%%].  A conversion without a matching argument writes nothing. *)
Fixpoint format (fmt : string) (args : list arg) : string :=
  match fmt with
  | EmptyString => EmptyString
  | String c rest =>
      if Ascii.eqb c "%" then
        match rest with
        | String c1 rest1 =>
            if Ascii.eqb c1 "d" then
              match args with
              | ArgInt z :: args' => fmt_d z ++ format rest1 args'
              | _ => format rest1 (tl args)
              end
            else if Ascii.eqb c1 "%" then String "%" (format rest1 args)
            else if Ascii.eqb c1 "." then
              match rest1 with
              | String c2 (String c3 rest3) =>
                  if Ascii.eqb c2 "2" && Ascii.eqb c3 "f" then
                    match args with
                    | ArgDouble x :: args' => fmt_f2 x ++ format rest3 args'
                    | _ => format rest3 (tl args)
                    end
                  else String c (format rest args)
              | _ => String c (format rest args)
              end
            else String c (format rest args)
        | EmptyString => String c EmptyString
        end
      else String c (format rest args)
  end.

(** *** The two library calls *)

(** The world after [s] was appended to standard output. *)
Definition emit (w : world) (s : string) : world :=
  {| argv := argv w; stdin := stdin w; stdout := stdout w ++ s |}.

Definition write_stdout (s : string) : proc unit :=
  fun w => (Returned tt, emit w s).

(** [printf(fmt, args...)], its return value unused. *)
Definition printf (fmt : string) (args : list arg) : proc unit :=
  write_stdout (format (c_literal fmt) args).

(** [assert(e)] inside function [fn], with [NDEBUG] not defined: [text]
    is the expression as written and [c] its value. *)
Definition assert (fn text : string) (c : bool) : proc unit :=
  fun w =>
    if c then (Returned tt, w)
    else (Aborted {| func := fn; expr := text |}, w).

(** Text as a sequence of lines, each ended by a line feed. *)
Fixpoint unlines (ls : list string) : string :=
  match ls with
  | [] => ""
  | l :: ls' => l ++ String LF (unlines ls')
  end.

(** [w'] is [w] after [text] was written to standard output and nothing
    else happened. *)
Definition wrote (w : world) (text : string) (w' : world) : Prop :=
  w' = emit w text.

End Stdio.

Import Stdio.

Declare Scope proc_scope.
Delimit Scope proc_scope with proc.
Notation "c1 ;; c2" := (bind c1 (fun _ => c2))
  (at level 61, right associativity) : proc_scope.

(* ===================================================================== *)
(** ** math_ops.h *)
(* ===================================================================== *)

Module MathLib.

(** The three functions of [../math-lib/math_ops.h] that [hello.c]
    calls. *)
Class Ops : Type := {
  multiply : Z -> Z -> Z;
  power : Z -> Z -> Z;
  divide : CDouble.double -> CDouble.double -> CDouble.double
}.

(** Modelled from the spec: [multiply] of the sibling math library, whose
    source is not among the files; a standard arithmetic operation, the
    product of two [int]s. *)
Definition spec_multiply (a b : Z) : Z := CInt.int_mul a b.

(** Modelled from the spec: [power] of the sibling math library, whose
    source is not among the files; a standard arithmetic operation,
    [base] multiplied [exp] times starting from 1. *)
Definition spec_power (base exp : Z) : Z :=
  Z.iter exp (fun acc => CInt.int_mul acc base) 1.

(** Modelled from the spec: [divide] of the sibling math library, whose
    source is not among the files; a standard arithmetic operation, the
    quotient of two [double]s. *)
Definition spec_divide (a b : CDouble.double) : CDouble.double :=
  CDouble.div a b.

(** Modelled from the spec: the sibling math library as a whole. *)
Definition spec_ops : Ops := {|
  multiply := spec_multiply;
  power := spec_power;
  divide := spec_divide
|}.

End MathLib.

(* ===================================================================== *)
(** ** hello.c *)
(* ===================================================================== *)

Module Hello.

Import MathLib.
Local Open Scope string_scope.
Local Open Scope proc_scope.

Section WithMathLib.
Context {math : Ops}.

(** [void print_hello(void)] *)
Definition print_hello : proc unit :=
  printf "Hello, World from nx-make!\n" [] ;;
  printf "Math demo: 5 * 3 = %d\n" [ArgInt (multiply 5 3)] ;;
  printf "Math demo: 2^8 = %d\n" [ArgInt (power 2 8)] ;;
  printf "Math demo: 10 / 4 = %.2f\n"
         [ArgDouble (divide (CDouble.of_Z 10) (CDouble.of_Z 4))].

End WithMathLib.

(** [int add(int a, int b) { return a + b; }] *)
Definition add (a b : Z) : Z := CInt.int_add a b.

End Hello.

(* ===================================================================== *)
(** ** test.c *)
(* ===================================================================== *)

Module Test.

Local Open Scope string_scope.
Local Open Scope proc_scope.

Section WithHello.
(** [hello.h] declares [add]; the definition comes at link time. *)
Variable add : Z -> Z -> Z.

(** [void test_add()] *)
Definition test_add : proc unit :=
  printf "Testing add function...\n" [] ;;
  assert "test_add" "add(2, 3) == 5" (CInt.int_eq (add 2 3) 5) ;;
  assert "test_add" "add(-1, 1) == 0" (CInt.int_eq (add (-1) 1) 0) ;;
  assert "test_add" "add(0, 0) == 0" (CInt.int_eq (add 0 0) 0) ;;
  printf "  ✓ All add tests passed\n" [].

(** [int main()] *)
Definition main : proc Z :=
  printf "Running tests...\n" [] ;;
  test_add ;;
  printf "\n✓ All tests passed!\n" [] ;;
  ret 0.

End WithHello.

End Test.

(* ===================================================================== *)
(** ** The linked program *)
(* ===================================================================== *)

Module Program.

Definition test_add : proc unit := Test.test_add Hello.add.

Definition main : proc Z := Test.main Hello.add.

(** The output of a run of [main] that is not aborted, line by line. *)
Definition expected_lines : list string :=
  [ "Running tests...";
    "Testing add function...";
    "  ✓ All add tests passed";
    "";
    "✓ All tests passed!" ]%string.

(** The output of [print_hello] with the math library of the
    specification, line by line. *)
Definition hello_lines : list string :=
  [ "Hello, World from nx-make!";
    "Math demo: 5 * 3 = 15";
    "Math demo: 2^8 = 256";
    "Math demo: 10 / 4 = 2.50" ]%string.

(** A world a process can start in: nothing written yet. *)
Definition fresh : world := {| argv := []; stdin := ""; stdout := "" |}.

End Program.

(* ===================================================================== *)
(** ** Lines of text *)
(* ===================================================================== *)

Module Text.

(** Whether a piece of text stays on one line: it holds no line feed. *)
Fixpoint one_line (s : string) : bool :=
  match s with
  | EmptyString => true
  | String c rest => negb (Ascii.eqb c LF) && one_line rest
  end.

End Text.

(* ===================================================================== *)
(** * Properties *)
(* ===================================================================== *)

Section CIntFacts.
Import CInt.

Lemma in_rangeb_spec z : in_rangeb z = true <-> in_range z.
Proof.
  unfold in_rangeb, in_range.
  rewrite andb_true_iff, !Z.leb_le. reflexivity.
Qed.

Lemma modulus_value : modulus = 4294967296.
Proof. reflexivity. Qed.

Lemma half_modulus_value : half_modulus = 2147483648.
Proof. reflexivity. Qed.

Lemma wrap_in_range z : in_range (wrap z).
Proof.
  unfold in_range, wrap, int_min, int_max.
  rewrite modulus_value, half_modulus_value.
  pose proof (Z.mod_pos_bound (z + 2147483648) 4294967296 ltac:(lia)).
  lia.
Qed.

Lemma wrap_small z : in_range z -> wrap z = z.
Proof.
  unfold in_range, wrap, int_min, int_max.
  rewrite modulus_value, half_modulus_value.
  intros H. rewrite Z.mod_small by lia. lia.
Qed.

Lemma wrap_congr z : wrap z mod modulus = z mod modulus.
Proof.
  unfold wrap. rewrite modulus_value, half_modulus_value.
  rewrite Zminus_mod_idemp_l.
  f_equal. lia.
Qed.

End CIntFacts.

(* ===================================================================== *)
(** ** [add] *)
(* ===================================================================== *)

Section AddFacts.
Import CInt.

Lemma add_unfold a b : Hello.add a b = wrap (a + b).
Proof. reflexivity. Qed.

Lemma add_in_range a b : in_range (Hello.add a b).
Proof. rewrite add_unfold. apply wrap_in_range. Qed.

Lemma add_exact a b : in_range (a + b) -> Hello.add a b = a + b.
Proof. intros H. rewrite add_unfold. now apply wrap_small. Qed.

Lemma add_congr a b : Hello.add a b mod modulus = (a + b) mod modulus.
Proof. rewrite add_unfold. apply wrap_congr. Qed.

(** At the top of the range the sum does not fit and [add] wraps to the
    bottom. *)
Example add_wraps : Hello.add int_max 1 = int_min.
Proof. reflexivity. Qed.

End AddFacts.

(** C1: for all [int]s [a] and [b], [add a b] is the sum [a + b] in machine
    arithmetic: it equals the mathematical sum whenever that sum is an
    [int], and in every case it is an [int] congruent to the sum modulo
    [2^32]. *)
Theorem add_is_sum (a b : Z) :
  CInt.in_range a -> CInt.in_range b ->
  (CInt.in_range (a + b) -> Hello.add a b = a + b)
  /\ CInt.in_range (Hello.add a b)
  /\ Hello.add a b mod CInt.modulus = (a + b) mod CInt.modulus.
Proof.
  intros _ _. split; [apply add_exact|].
  split; [apply add_in_range | apply add_congr].
Qed.

Lemma add_is_sum_witness :
  CInt.in_range 20 /\ CInt.in_range 22 /\ Hello.add 20 22 = 20 + 22.
Proof.
  assert (Ha : CInt.in_range 20) by (apply in_rangeb_spec; reflexivity).
  assert (Hb : CInt.in_range 22) by (apply in_rangeb_spec; reflexivity).
  split; [exact Ha | split; [exact Hb |]].
  apply (proj1 (add_is_sum 20 22 Ha Hb)).
  apply in_rangeb_spec; reflexivity.
Defined.

(** C2: the three cases of [test_add]: [add(2, 3) = 5], [add(-1, 1) = 0] and
    [add(0, 0) = 0]. *)
Theorem add_literal_cases :
  Hello.add 2 3 = 5 /\ Hello.add (-1) 1 = 0 /\ Hello.add 0 0 = 0.
Proof. repeat split. Qed.

(** C5: [add] is commutative: [add a b = add b a] for all [a] and [b]. *)
Theorem hello_add_comm (a b : Z) : Hello.add a b = Hello.add b a.
Proof. rewrite !add_unfold. f_equal. apply Z.add_comm. Qed.

(** C9: zero is a two-sided identity of [add]: for every [int] [a],
    [add a 0 = a] and [add 0 a = a]. *)
Theorem add_zero_identity (a : Z) :
  CInt.in_range a -> Hello.add a 0 = a /\ Hello.add 0 a = a.
Proof.
  intros Ha. split.
  - rewrite add_exact; rewrite Z.add_0_r; auto.
  - rewrite add_exact; rewrite Z.add_0_l; auto.
Qed.

Lemma add_zero_identity_witness :
  CInt.in_range (-7) /\ Hello.add (-7) 0 = -7 /\ Hello.add 0 (-7) = -7.
Proof.
  assert (Ha : CInt.in_range (-7)) by (apply in_rangeb_spec; reflexivity).
  split; [exact Ha | apply (add_zero_identity (-7) Ha)].
Defined.

(* ===================================================================== *)
(** ** Running a process *)
(* ===================================================================== *)

Section ProcFacts.
Local Open Scope string_scope.

Lemma string_app_assoc (s t u : string) : (s ++ t) ++ u = s ++ (t ++ u).
Proof.
  induction s as [|c s IH]; simpl.
  - reflexivity.
  - now rewrite IH.
Qed.

Lemma emit_emit w s t : emit (emit w s) t = emit w (s ++ t).
Proof. unfold emit; simpl. now rewrite string_app_assoc. Qed.

Lemma emit_stdout w s : stdout (emit w s) = stdout w ++ s.
Proof. reflexivity. Qed.

Lemma emit_keeps_input w s :
  argv (emit w s) = argv w /\ stdin (emit w s) = stdin w.
Proof. split; reflexivity. Qed.

Lemma printf_run fmt args w :
  printf fmt args w = (Returned tt, emit w (format (c_literal fmt) args)).
Proof. reflexivity. Qed.

Lemma assert_holds fn text w : assert fn text true w = (Returned tt, w).
Proof. reflexivity. Qed.

Lemma assert_fails fn text w :
  assert fn text false w = (Aborted {| func := fn; expr := text |}, w).
Proof. reflexivity. Qed.

Lemma bind_returned {A B} (m : proc A) (k : A -> proc B) w a w' :
  m w = (Returned a, w') -> bind m k w = k a w'.
Proof. intros H. unfold bind. now rewrite H. Qed.

Lemma bind_aborted {A B} (m : proc A) (k : A -> proc B) w fl w' :
  m w = (Aborted fl, w') -> bind m k w = (Aborted fl, w').
Proof. intros H. unfold bind. now rewrite H. Qed.

End ProcFacts.

(* ===================================================================== *)
(** ** test.c against any [add] *)
(* ===================================================================== *)

Section TestFacts.
Local Open Scope string_scope.
Variable add : Z -> Z -> Z.

(** [test_add], run: the first assertion that fails aborts, with what was
    written before it; otherwise both lines are written. *)
Lemma test_add_run w :
  Test.test_add add w =
  if CInt.int_eq (add 2 3) 5 then
    if CInt.int_eq (add (-1) 1) 0 then
      if CInt.int_eq (add 0 0) 0 then
        (Returned tt,
         emit w (unlines ["Testing add function...";
                          "  ✓ All add tests passed"]))
      else (Aborted {| func := "test_add"; expr := "add(0, 0) == 0" |},
            emit w (unlines ["Testing add function..."]))
    else (Aborted {| func := "test_add"; expr := "add(-1, 1) == 0" |},
          emit w (unlines ["Testing add function..."]))
  else (Aborted {| func := "test_add"; expr := "add(2, 3) == 5" |},
        emit w (unlines ["Testing add function..."])).
Proof.
  unfold Test.test_add.
  rewrite (bind_returned _ _ _ _ _ (printf_run _ _ _)).
  destruct (CInt.int_eq (add 2 3) 5).
  - rewrite (bind_returned _ _ _ _ _ (assert_holds _ _ _)).
    destruct (CInt.int_eq (add (-1) 1) 0).
    + rewrite (bind_returned _ _ _ _ _ (assert_holds _ _ _)).
      destruct (CInt.int_eq (add 0 0) 0).
      * rewrite (bind_returned _ _ _ _ _ (assert_holds _ _ _)).
        rewrite printf_run, emit_emit. reflexivity.
      * now rewrite (bind_aborted _ _ _ _ _ (assert_fails _ _ _)).
    + now rewrite (bind_aborted _ _ _ _ _ (assert_fails _ _ _)).
  - now rewrite (bind_aborted _ _ _ _ _ (assert_fails _ _ _)).
Qed.

(** [main], run: it returns 0 after the five lines when [test_add]
    returns, and aborts where [test_add] aborts. *)
Lemma main_run w :
  Test.main add w =
  match Test.test_add add (emit w (unlines ["Running tests..."])) with
  | (Returned _, w') =>
      (Returned 0, emit w' (unlines [""; "✓ All tests passed!"]))
  | (Aborted fl, w') => (Aborted fl, w')
  end.
Proof.
  unfold Test.main.
  rewrite (bind_returned _ _ _ _ _ (printf_run _ _ _)).
  change (format (c_literal "Running tests...\n") [])
    with (unlines ["Running tests..."]).
  unfold bind at 1.
  destruct (Test.test_add add _) as [[[] | fl] w']; reflexivity.
Qed.

(** When the three conditions hold, [main] writes its five lines and
    returns 0. *)
Lemma main_passes w :
  CInt.int_eq (add 2 3) 5 = true ->
  CInt.int_eq (add (-1) 1) 0 = true ->
  CInt.int_eq (add 0 0) 0 = true ->
  Test.main add w = (Returned 0, emit w (unlines Program.expected_lines)).
Proof.
  intros H1 H2 H3. rewrite main_run, test_add_run, H1, H2, H3.
  rewrite !emit_emit. reflexivity.
Qed.

(** When one of them fails, [main] is aborted by the first assertion of
    [test_add] whose condition is false. *)
Lemma main_aborts w :
  CInt.int_eq (add 2 3) 5
  && CInt.int_eq (add (-1) 1) 0
  && CInt.int_eq (add 0 0) 0 = false ->
  exists text w',
    Test.main add w = (Aborted {| func := "test_add"; expr := text |}, w')
    /\ ((text = "add(2, 3) == 5"
         /\ CInt.int_eq (add 2 3) 5 = false)
        \/ (text = "add(-1, 1) == 0"
            /\ CInt.int_eq (add (-1) 1) 0 = false)
        \/ (text = "add(0, 0) == 0"
            /\ CInt.int_eq (add 0 0) 0 = false)).
Proof.
  intros H. rewrite main_run, test_add_run.
  destruct (CInt.int_eq (add 2 3) 5);
    [destruct (CInt.int_eq (add (-1) 1) 0);
       [destruct (CInt.int_eq (add 0 0) 0); [discriminate|]|]|];
    eexists; eexists; (split; [reflexivity|]); auto.
Qed.

(** There is no third way. *)
Lemma main_cases w :
  (exists w', Test.main add w = (Returned 0, w'))
  \/ (exists fl w', Test.main add w = (Aborted fl, w')
                    /\ func fl = "test_add").
Proof.
  destruct (CInt.int_eq (add 2 3) 5
            && CInt.int_eq (add (-1) 1) 0
            && CInt.int_eq (add 0 0) 0) eqn:E.
  - apply andb_prop in E as [E E3]. apply andb_prop in E as [E1 E2].
    left. eexists. now apply main_passes.
  - right. destruct (main_aborts w E) as (text & w' & Hrun & _).
    exists {| func := "test_add"; expr := text |}, w'. now split.
Qed.

End TestFacts.

(* ===================================================================== *)
(** ** hello.c, run *)
(* ===================================================================== *)

Section HelloFacts.
Local Open Scope string_scope.
Context {math : MathLib.Ops}.

(** Whatever the math library computes, [print_hello] writes four lines
    and returns. *)
Lemma print_hello_run w :
  Hello.print_hello w =
  (Returned tt,
   emit w (unlines
     [ "Hello, World from nx-make!";
       "Math demo: 5 * 3 = " ++ fmt_d (MathLib.multiply 5 3);
       "Math demo: 2^8 = " ++ fmt_d (MathLib.power 2 8);
       "Math demo: 10 / 4 = "
         ++ fmt_f2 (MathLib.divide (CDouble.of_Z 10) (CDouble.of_Z 4)) ])).
Proof.
  unfold Hello.print_hello.
  repeat rewrite (bind_returned _ _ _ _ _ (printf_run _ _ _)).
  rewrite printf_run, !emit_emit.
  do 2 f_equal. cbn.
  rewrite !string_app_assoc. reflexivity.
Qed.

End HelloFacts.

(* ===================================================================== *)
(** ** The linked program, run *)
(* ===================================================================== *)

Section ProgramFacts.
Local Open Scope string_scope.

Lemma program_main_run w :
  Program.main w = (Returned 0, emit w (unlines Program.expected_lines)).
Proof. now apply main_passes. Qed.

Lemma program_test_add_run w :
  Program.test_add w =
  (Returned tt,
   emit w (unlines ["Testing add function..."; "  ✓ All add tests passed"])).
Proof. unfold Program.test_add. now rewrite test_add_run. Qed.

Lemma spec_print_hello_run w :
  Hello.print_hello (math := MathLib.spec_ops) w =
  (Returned tt, emit w (unlines Program.hello_lines)).
Proof. now rewrite print_hello_run. Qed.

End ProgramFacts.

(* ===================================================================== *)
(** ** Failure, exit status and output of [main] *)
(* ===================================================================== *)

Local Open Scope string_scope.

(** C3: the only way the program fails is an assertion of [test_add]:
    whatever [add] is linked, a run of [main] that is aborted was aborted
    in [test_add] by one of its three assertions, whose condition was
    false, and [print_hello] is never aborted; with the [add] of [hello.c]
    the three conditions hold, so neither [test_add] nor [main] is ever
    aborted. *)
Theorem assertion_is_the_only_failure :
  (forall (f : Z -> Z -> Z) w fl w',
      Test.main f w = (Aborted fl, w') ->
      func fl = "test_add"
      /\ ((expr fl = "add(2, 3) == 5" /\ f 2 3 <> 5)
          \/ (expr fl = "add(-1, 1) == 0" /\ f (-1) 1 <> 0)
          \/ (expr fl = "add(0, 0) == 0" /\ f 0 0 <> 0)))
  /\ (forall (math : MathLib.Ops) w,
         aborted (fst (Hello.print_hello w)) = false)
  /\ (CInt.int_eq (Hello.add 2 3) 5 = true
      /\ CInt.int_eq (Hello.add (-1) 1) 0 = true
      /\ CInt.int_eq (Hello.add 0 0) 0 = true)
  /\ (forall w, aborted (fst (Program.test_add w)) = false)
  /\ (forall w, aborted (fst (Program.main w)) = false).
Proof.
  split; [|split; [|split; [|split]]].
  - intros f w fl w' Hrun.
    destruct (CInt.int_eq (f 2 3) 5
              && CInt.int_eq (f (-1) 1) 0
              && CInt.int_eq (f 0 0) 0) eqn:E.
    + apply andb_prop in E as [E E3]. apply andb_prop in E as [E1 E2].
      rewrite (main_passes f w E1 E2 E3) in Hrun. discriminate.
    + destruct (main_aborts f w E) as (text & w1 & Hrun' & Hwhich).
      rewrite Hrun' in Hrun. injection Hrun as <- _. simpl.
      split; [reflexivity|].
      unfold CInt.int_eq in Hwhich. rewrite !Z.eqb_neq in Hwhich.
      exact Hwhich.
  - intros math w. now rewrite print_hello_run.
  - repeat split.
  - intros w. now rewrite program_test_add_run.
  - intros w. now rewrite program_main_run.
Qed.

Lemma assertion_is_the_only_failure_witness :
  Test.main (fun _ _ => 5) Program.fresh
  = (Aborted {| func := "test_add"; expr := "add(-1, 1) == 0" |},
     emit Program.fresh
          (unlines ["Running tests..."; "Testing add function..."]))
  /\ func {| func := "test_add"; expr := "add(-1, 1) == 0" |} = "test_add".
Proof.
  assert (Hrun : Test.main (fun _ _ => 5) Program.fresh
                 = (Aborted {| func := "test_add";
                               expr := "add(-1, 1) == 0" |},
                    emit Program.fresh
                         (unlines ["Running tests...";
                                   "Testing add function..."])))
    by reflexivity.
  split; [exact Hrun|].
  exact (proj1 (proj1 assertion_is_the_only_failure _ _ _ _ Hrun)).
Defined.

(** C4: whatever [add] is linked, a run of [main] that no assertion aborts
    returns 0, so the exit status is 0; and an exit status other than 0
    means that an assertion of [test_add] aborted the process. *)
Theorem exit_status_of_main (f : Z -> Z -> Z) (w : world) :
  (aborted (fst (Test.main f w)) = false ->
   fst (Test.main f w) = Returned 0
   /\ exit_status (fst (Test.main f w)) = 0%Z)
  /\ (exit_status (fst (Test.main f w)) <> 0%Z ->
      exists fl, fst (Test.main f w) = Aborted fl
                 /\ func fl = "test_add").
Proof.
  destruct (main_cases f w) as [[w' Hrun] | (fl & w' & Hrun & Hfn)];
    rewrite Hrun; simpl; split.
  - intros _. split; reflexivity.
  - intros H. now elim H.
  - discriminate.
  - intros _. now exists fl.
Qed.

Lemma exit_status_of_main_witness :
  exit_status (fst (Test.main Hello.add Program.fresh)) = 0%Z
  /\ exists fl, fst (Test.main (fun _ _ => 5) Program.fresh) = Aborted fl
                /\ func fl = "test_add".
Proof.
  split.
  - apply (proj1 (exit_status_of_main Hello.add Program.fresh)).
    reflexivity.
  - apply (proj2 (exit_status_of_main (fun _ _ => 5) Program.fresh)).
    vm_compute. discriminate.
Defined.

(** C10: whatever [add] is linked, when [main] returns (no assertion
    aborted it), what it has written to standard output is exactly the
    lines "Running tests...", "Testing add function...",
    "  ✓ All add tests passed", an empty line and "✓ All tests passed!",
    in this order, and it returns 0; the linked program is such a run. *)
Theorem main_output (f : Z -> Z -> Z) (w w' : world) (code : Z) :
  Test.main f w = (Returned code, w') ->
  wrote w (unlines [ "Running tests...";
                     "Testing add function...";
                     "  ✓ All add tests passed";
                     "";
                     "✓ All tests passed!" ]) w'
  /\ code = 0%Z.
Proof.
  intros Hrun.
  destruct (CInt.int_eq (f 2 3) 5
            && CInt.int_eq (f (-1) 1) 0
            && CInt.int_eq (f 0 0) 0) eqn:E.
  - apply andb_prop in E as [E E3]. apply andb_prop in E as [E1 E2].
    rewrite (main_passes f w E1 E2 E3) in Hrun.
    injection Hrun as <- <-. split; reflexivity.
  - destruct (main_aborts f w E) as (text & w1 & Hrun' & _).
    rewrite Hrun' in Hrun. discriminate.
Qed.

Lemma main_output_witness :
  stdout (snd (Program.main Program.fresh))
  = unlines [ "Running tests...";
              "Testing add function...";
              "  ✓ All add tests passed";
              "";
              "✓ All tests passed!" ].
Proof.
  assert (Hrun : Test.main Hello.add Program.fresh
                 = (Returned 0%Z, snd (Program.main Program.fresh)))
    by reflexivity.
  destruct (main_output Hello.add Program.fresh _ 0%Z Hrun) as [Hw _].
  rewrite Hw. reflexivity.
Defined.

(* ===================================================================== *)
(** ** The math library calls of [print_hello] *)
(* ===================================================================== *)

(** C6: with the math library as the specification describes it, the three
    calls of [print_hello] give [multiply(5, 3) = 15], [power(2, 8) = 256]
    and a quotient [divide(10.0, 4.0)] that [%.2f] prints as 2.50, and
    [print_hello] writes its four lines with these values. *)
Theorem math_demo_values :
  MathLib.spec_multiply 5 3 = 15%Z
  /\ MathLib.spec_power 2 8 = 256%Z
  /\ fmt_f2 (MathLib.spec_divide (CDouble.of_Z 10) (CDouble.of_Z 4)) = "2.50"
  /\ forall w,
       Hello.print_hello (math := MathLib.spec_ops) w =
       (Returned tt,
        emit w (unlines [ "Hello, World from nx-make!";
                          "Math demo: 5 * 3 = 15";
                          "Math demo: 2^8 = 256";
                          "Math demo: 10 / 4 = 2.50" ])).
Proof.
  repeat split. intros w. apply spec_print_hello_run.
Qed.

(* ===================================================================== *)
(** ** Termination and determinism *)
(* ===================================================================== *)

(** C7: every run terminates: from any world, [main] of the linked program
    runs through [test_add] to its [return 0], [test_add] returns, and
    [print_hello] returns whatever (total) math library it is linked
    with. *)
Theorem program_terminates :
  (forall w, exists w', Program.main w = (Returned 0%Z, w'))
  /\ (forall w, exists w', Program.test_add w = (Returned tt, w'))
  /\ (forall (math : MathLib.Ops) w,
         exists w', Hello.print_hello w = (Returned tt, w')).
Proof.
  split; [|split].
  - intros w. eexists. apply program_main_run.
  - intros w. eexists. apply program_test_add_run.
  - intros math w. eexists. apply print_hello_run.
Qed.

(** C8: the program is deterministic: [main], [test_add] and [print_hello]
    read nothing of the world they run in, so any two runs, from any two
    worlds, end the same way and write the same text to standard output,
    leaving the rest of the world as it was. *)
Theorem program_deterministic :
  (forall w1 w2,
      fst (Program.main w1) = fst (Program.main w2)
      /\ exit_status (fst (Program.main w1))
         = exit_status (fst (Program.main w2))
      /\ exists text,
           wrote w1 text (snd (Program.main w1))
           /\ wrote w2 text (snd (Program.main w2)))
  /\ (forall w1 w2,
         fst (Program.test_add w1) = fst (Program.test_add w2)
         /\ exists text,
              wrote w1 text (snd (Program.test_add w1))
              /\ wrote w2 text (snd (Program.test_add w2)))
  /\ (forall (math : MathLib.Ops) w1 w2,
         fst (Hello.print_hello w1) = fst (Hello.print_hello w2)
         /\ exists text,
              wrote w1 text (snd (Hello.print_hello w1))
              /\ wrote w2 text (snd (Hello.print_hello w2))).
Proof.
  split; [|split].
  - intros w1 w2. rewrite !program_main_run. simpl.
    repeat split. eexists. split; reflexivity.
  - intros w1 w2. rewrite !program_test_add_run. simpl.
    split; [reflexivity|]. eexists. split; reflexivity.
  - intros math w1 w2. rewrite !print_hello_run. simpl.
    split; [reflexivity|]. eexists. split; reflexivity.
Qed.

(* ===================================================================== *)
(** * Further properties of the two files *)
(* ===================================================================== *)

(* ===================================================================== *)
(** ** [add] as an operation on [int] *)
(* ===================================================================== *)

Section AddAlgebra.
Import CInt.
Local Open Scope Z_scope.

Lemma wrap_add_l a b : wrap (wrap a + b) = wrap (a + b).
Proof.
  unfold wrap. rewrite modulus_value, half_modulus_value.
  f_equal.
  replace ((a + 2147483648) mod 4294967296 - 2147483648 + b + 2147483648)
    with ((a + 2147483648) mod 4294967296 + b) by lia.
  rewrite Zplus_mod_idemp_l. f_equal. lia.
Qed.

Lemma wrap_add_r a b : wrap (a + wrap b) = wrap (a + b).
Proof. rewrite (Z.add_comm a), wrap_add_l. f_equal. lia. Qed.

Lemma wrap_eq_congr a b : wrap a = wrap b -> a mod modulus = b mod modulus.
Proof. intros H. rewrite <- (wrap_congr a), <- (wrap_congr b). now rewrite H. Qed.

Lemma in_range_mod_inj b c :
  in_range b -> in_range c -> b mod modulus = c mod modulus -> b = c.
Proof.
  unfold in_range, int_min, int_max.
  rewrite modulus_value, half_modulus_value. intros Hb Hc H.
  assert (Hd : (b - c) mod 4294967296 = 0).
  { rewrite Zminus_mod, H, Z.sub_diag. reflexivity. }
  apply Z.mod_divide in Hd; [|lia].
  destruct Hd as [k Hk]. lia.
Qed.

End AddAlgebra.

(** X1: [add] is associative: [add (add a b) c = add a (add b c)] for all
    [a], [b] and [c], also when an intermediate sum wraps. *)
Theorem hello_add_assoc (a b c : Z) :
  Hello.add (Hello.add a b) c = Hello.add a (Hello.add b c).
Proof.
  rewrite !add_unfold, wrap_add_l, wrap_add_r. f_equal. lia.
Qed.

(** X2: the sum of two [int]s of opposite signs always fits: for [int]s
    [a <= 0 <= b], [add a b] and [add b a] are the mathematical sum
    [a + b]. *)
Theorem add_opposite_signs_exact (a b : Z) :
  CInt.in_range a -> CInt.in_range b -> (a <= 0 <= b)%Z ->
  Hello.add a b = (a + b)%Z /\ Hello.add b a = (a + b)%Z.
Proof.
  intros Ha Hb Hs.
  assert (Hsum : CInt.in_range (a + b)).
  { revert Ha Hb. unfold CInt.in_range, CInt.int_min, CInt.int_max.
    rewrite half_modulus_value. lia. }
  split.
  - now apply add_exact.
  - rewrite (Z.add_comm a b) in *. now apply add_exact.
Qed.

Lemma add_opposite_signs_exact_witness :
  Hello.add (-2147483648) 2147483647 = (-1)%Z
  /\ Hello.add 2147483647 (-2147483648) = (-1)%Z.
Proof.
  apply (add_opposite_signs_exact (-2147483648) 2147483647).
  - apply in_rangeb_spec; reflexivity.
  - apply in_rangeb_spec; reflexivity.
  - lia.
Defined.

(** X3: [add] can be cancelled: for [int]s [b] and [c], if
    [add a b = add a c] then [b = c]. *)
Theorem add_cancel_l (a b c : Z) :
  CInt.in_range b -> CInt.in_range c ->
  Hello.add a b = Hello.add a c -> b = c.
Proof.
  intros Hb Hc H. rewrite !add_unfold in H.
  apply wrap_eq_congr in H.
  apply in_range_mod_inj; trivial.
  rewrite modulus_value in *.
  replace b with ((a + b) - a)%Z by lia.
  replace c with ((a + c) - a)%Z by lia.
  rewrite (Zminus_mod (a + b)), (Zminus_mod (a + c)), H. reflexivity.
Qed.

Lemma add_cancel_l_witness : (2 + 3 = 5)%Z.
Proof.
  apply (add_cancel_l 2147483647 (2 + 3) 5).
  - apply in_rangeb_spec; reflexivity.
  - apply in_rangeb_spec; reflexivity.
  - reflexivity.
Defined.

(* ===================================================================== *)
(** ** What the test decides *)
(* ===================================================================== *)

Section TestVerdict.
Local Open Scope string_scope.
Variable add : Z -> Z -> Z.

Lemma int_eq_true a b : CInt.int_eq a b = true <-> a = b.
Proof. unfold CInt.int_eq. apply Z.eqb_eq. Qed.

Lemma int_eq_false a b : CInt.int_eq a b = false <-> a <> b.
Proof. unfold CInt.int_eq. apply Z.eqb_neq. Qed.


End TestVerdict.

(** X4: the test passes exactly on the three points it checks: whatever
    [add] is linked, [main] returns (with 0, after its five lines) if and
    only if [add(2, 3) = 5], [add(-1, 1) = 0] and [add(0, 0) = 0]; it says
    nothing about [add] anywhere else. *)
Theorem main_returns_iff (f : Z -> Z -> Z) (w : world) :
  Test.main f w = (Returned 0%Z, emit w (unlines Program.expected_lines))
  <-> (f 2 3 = 5 /\ f (-1) 1 = 0 /\ f 0 0 = 0)%Z.
Proof.
  split.
  - intros Hrun.
    destruct (CInt.int_eq (f 2 3) 5
              && CInt.int_eq (f (-1) 1) 0
              && CInt.int_eq (f 0 0) 0) eqn:E.
    + apply andb_prop in E as [E E3]. apply andb_prop in E as [E1 E2].
      rewrite int_eq_true in E1, E2, E3. auto.
    + destruct (main_aborts f w E) as (text & w1 & Hrun' & _).
      rewrite Hrun' in Hrun. discriminate.
  - intros (H1 & H2 & H3).
    apply main_passes; apply int_eq_true; assumption.
Qed.

(** A function that is not addition and passes the test all the same. *)
Lemma main_returns_iff_witness :
  Test.main (fun a b => if (b =? 3)%Z then 5%Z else 0%Z) Program.fresh
  = (Returned 0%Z, emit Program.fresh (unlines Program.expected_lines)).
Proof.
  apply (proj2 (main_returns_iff
                  (fun a b => if (b =? 3)%Z then 5%Z else 0%Z)
                  Program.fresh)).
  repeat split.
Defined.

(** X5: [test_add] stops at the first assertion that fails: whatever [add]
    is linked, [main] is aborted with the text of the first of the three
    conditions, in the order of the source, that is false. *)
Theorem first_failed_assertion_reported (f : Z -> Z -> Z) (w : world) :
  (f 2 3 <> 5%Z ->
   fst (Test.main f w)
   = Aborted {| func := "test_add"; expr := "add(2, 3) == 5" |})
  /\ (f 2 3 = 5%Z -> f (-1) 1 <> 0%Z ->
      fst (Test.main f w)
      = Aborted {| func := "test_add"; expr := "add(-1, 1) == 0" |})
  /\ (f 2 3 = 5%Z -> f (-1) 1 = 0%Z -> f 0 0 <> 0%Z ->
      fst (Test.main f w)
      = Aborted {| func := "test_add"; expr := "add(0, 0) == 0" |}).
Proof.
  rewrite main_run, test_add_run.
  split; [|split].
  - intros H1. apply int_eq_false in H1. now rewrite H1.
  - intros H1 H2. apply int_eq_true in H1. apply int_eq_false in H2.
    now rewrite H1, H2.
  - intros H1 H2 H3.
    apply int_eq_true in H1, H2. apply int_eq_false in H3.
    now rewrite H1, H2, H3.
Qed.

(** An [add] that is wrong everywhere is reported at the first assertion;
    one that is right only at [(2, 3)] at the second. *)
Lemma first_failed_assertion_reported_witness :
  fst (Test.main (fun _ _ => 7%Z) Program.fresh)
  = Aborted {| func := "test_add"; expr := "add(2, 3) == 5" |}
  /\ fst (Test.main (fun _ _ => 5%Z) Program.fresh)
     = Aborted {| func := "test_add"; expr := "add(-1, 1) == 0" |}.
Proof.
  split.
  - apply (proj1 (first_failed_assertion_reported (fun _ _ => 7%Z)
                                                  Program.fresh)).
    discriminate.
  - apply (proj1 (proj2 (first_failed_assertion_reported (fun _ _ => 5%Z)
                                                         Program.fresh))).
    + reflexivity.
    + discriminate.
Defined.



(* ===================================================================== *)
(** ** The shape of what [print_hello] writes *)
(* ===================================================================== *)

Section OneLine.
Import Text.
Local Open Scope string_scope.

Lemma one_line_app s t : one_line (s ++ t) = one_line s && one_line t.
Proof.
  induction s as [|c s IH]; simpl.
  - reflexivity.
  - now rewrite IH, andb_assoc.
Qed.

Lemma one_line_cons c s :
  Ascii.eqb c LF = false -> one_line (String c s) = one_line s.
Proof. intros H. simpl. now rewrite H. Qed.

Lemma one_line_uint d : one_line (NilEmpty.string_of_uint d) = true.
Proof.
  induction d; simpl NilEmpty.string_of_uint;
    [reflexivity | rewrite one_line_cons by reflexivity; assumption ..].
Qed.

Lemma one_line_nilzero_uint d : one_line (NilZero.string_of_uint d) = true.
Proof.
  unfold NilZero.string_of_uint.
  destruct d; [reflexivity | apply one_line_uint ..].
Qed.

Lemma one_line_fmt_d z : one_line (fmt_d z) = true.
Proof.
  unfold fmt_d, NilZero.string_of_int.
  destruct (Z.to_int z) as [d | d].
  - apply one_line_nilzero_uint.
  - rewrite one_line_cons by reflexivity. apply one_line_nilzero_uint.
Qed.

Lemma one_line_sign s : one_line (sign_prefix s) = true.
Proof. now destruct s. Qed.

Lemma one_line_fmt_f2 x : one_line (fmt_f2 x) = true.
Proof.
  destruct x as [s | s | | s m e]; unfold fmt_f2.
  - now rewrite one_line_app, one_line_sign.
  - now rewrite one_line_app, one_line_sign.
  - reflexivity.
  - cbv zeta. unfold two_digits.
    rewrite !one_line_app, one_line_sign, !one_line_fmt_d.
    destruct (Z.ltb (hundredths m e mod 100) 10); reflexivity.
Qed.

End OneLine.

(** X7: whatever the math library returns, [print_hello] returns after
    writing exactly four lines: the greeting and the three labelled
    results, each result printed without a line break. *)
Theorem print_hello_four_lines (math : MathLib.Ops) (w : world) :
  exists r1 r2 r3 : string,
    Hello.print_hello w =
    (Returned tt,
     emit w (unlines [ "Hello, World from nx-make!";
                       "Math demo: 5 * 3 = " ++ r1;
                       "Math demo: 2^8 = " ++ r2;
                       "Math demo: 10 / 4 = " ++ r3 ]))
    /\ Text.one_line r1 = true
    /\ Text.one_line r2 = true
    /\ Text.one_line r3 = true.
Proof.
  exists (fmt_d (MathLib.multiply 5 3)), (fmt_d (MathLib.power 2 8)),
    (fmt_f2 (MathLib.divide (CDouble.of_Z 10) (CDouble.of_Z 4))).
  split; [apply print_hello_run|].
  split; [apply one_line_fmt_d|].
  split; [apply one_line_fmt_d | apply one_line_fmt_f2].
Qed.
